(** * Order tracking of the catering front-end (the [OrderTracking] page)

    A shallow embedding of the order-tracking page: the static order table
    [mockOrderStatuses], the form schema [trackingFormSchema], the submit
    handler [onSubmit] with its delayed lookup, the status-to-progress
    mapping [getProgressPercentage] and the part of the rendering that reads
    the tracking history.

    Strings of the page are [string]; one character stands for one code unit
    (every literal of the page is ASCII).  The JavaScript object used as a
    table is a [gmap string Order] for its own properties, together with the
    property names every object literal inherits from [Object.prototype].
    The view state of the component ([useState]) and the pending timers
    ([setTimeout]) are threaded explicitly. *)

From Stdlib Require Import String Ascii List ZArith QArith Bool Lia Sorted.
From stdpp Require Import gmap strings list fin_maps.

Local Open Scope string_scope.

(** ** Data model *)

(** Values of the form, [z.infer<typeof trackingFormSchema>]. *)
Module TrackingForm.
Record values : Type := mk { orderId : string; email : string }.
End TrackingForm.

(** One entry of [trackingHistory]. *)
Module Event.
Record t : Type := mk { status : string; timestamp : string; location : string }.
End Event.

(** [currentLocation]; the decimal literals are kept as exact rationals. *)
Record Location : Type := mkLocation { lat : Q; lng : Q; address : string }.

(** One record of [mockOrderStatuses]. *)
Record Order : Type := mkOrder {
  status : string;
  customer : string;
  email : string;
  orderDate : string;
  items : list string;
  currentLocation : Location;
  estimatedDelivery : string;
  trackingHistory : list Event.t
}.

Definition ORD123456 : Order := {|
  status := "in-transit";
  customer := "Rahul Sharma";
  email := "test@example.com";
  orderDate := "2023-11-15T10:30:00";
  items := ["Paneer Tikka (15 pcs)"; "Butter Chicken (2kg)";
            "Vegetable Biryani (30 servings)"];
  currentLocation := {| lat := 12.9716; lng := 77.5946;
                        address := "Bannerghatta Road, Near JP Nagar" |};
  estimatedDelivery := "2023-11-15T14:30:00";
  trackingHistory := [
    Event.mk "order-placed" "2023-11-15T10:30:00" "Vendor Facility";
    Event.mk "preparing" "2023-11-15T11:15:00" "Vendor Kitchen";
    Event.mk "in-transit" "2023-11-15T13:00:00" "En Route to Destination" ]
|}.

Definition ORD789012 : Order := {|
  status := "delivered";
  customer := "Ananya Patel";
  email := "test@example.com";
  orderDate := "2023-11-14T09:45:00";
  items := ["Veg Starter Combo (25 persons)"; "Main Course Buffet (25 persons)"];
  currentLocation := {| lat := 12.9352; lng := 77.6245;
                        address := "Koramangala, 5th Block" |};
  estimatedDelivery := "2023-11-14T12:45:00";
  trackingHistory := [
    Event.mk "order-placed" "2023-11-14T09:45:00" "Vendor Facility";
    Event.mk "preparing" "2023-11-14T10:15:00" "Vendor Kitchen";
    Event.mk "in-transit" "2023-11-14T11:30:00" "En Route to Destination";
    Event.mk "delivered" "2023-11-14T12:40:00" "Destination" ]
|}.

(** The own properties of the object literal [mockOrderStatuses]. *)
Definition mockOrderStatuses : gmap string Order :=
  <["ORD123456" := ORD123456]> (<["ORD789012" := ORD789012]> ∅).

(** ** Property access on the table

    [mockOrderStatuses[values.orderId]] is a JavaScript property read: a key
    that is not an own property is looked up on [Object.prototype], whose
    members are functions (and, for [__proto__], the prototype object
    itself); any other key reads [undefined]. *)

Inductive js_value : Type :=
  | VNull
  | VUndefined
  | VOrder (o : Order)
  | VInherited (name : string).

Definition object_prototype_keys : list string :=
  [ "constructor"; "hasOwnProperty"; "isPrototypeOf"; "propertyIsEnumerable";
    "toLocaleString"; "toString"; "valueOf"; "__proto__";
    "__defineGetter__"; "__defineSetter__"; "__lookupGetter__";
    "__lookupSetter__" ].

Definition get_property (key : string) : js_value :=
  match mockOrderStatuses !! key with
  | Some o => VOrder o
  | None =>
      if existsb (String.eqb key) object_prototype_keys
      then VInherited key
      else VUndefined
  end.

(** Truthiness, as used by [orderData && ...] and [trackingResult && ...]. *)
Definition truthy (v : js_value) : bool :=
  match v with
  | VNull | VUndefined => false
  | VOrder _ | VInherited _ => true
  end.

(** [v.email] on a truthy value; [None] is [undefined] (no member of
    [Object.prototype] has an [email] property). *)
Definition email_of (v : js_value) : option string :=
  match v with
  | VOrder o => Some (email o)
  | _ => None
  end.

(** [orderData && orderData.email === values.email]. *)
Definition credentials_match (orderData : js_value) (given : string) : bool :=
  truthy orderData &&
  match email_of orderData with
  | Some e => String.eqb e given
  | None => false
  end.

(** ** Status-to-progress mapping *)

Definition getProgressPercentage (status : string) : Z :=
  if String.eqb status "order-placed" then 25
  else if String.eqb status "preparing" then 50
  else if String.eqb status "in-transit" then 75
  else if String.eqb status "delivered" then 100
  else 0.

(** The statuses in the order of the [case] labels of
    [getProgressPercentage] (and of the labels above the progress bar). *)
Definition lifecycle : list string :=
  ["order-placed"; "preparing"; "in-transit"; "delivered"].

(** ** View state, notifications and timers *)

Inductive variant : Type := Default | Destructive.

Record Toast : Type := mkToast {
  title : string;
  description : string;
  toast_variant : variant
}.

Definition orderFoundToast : Toast := {|
  title := "Order Found";
  description := "Displaying tracking information for your order.";
  toast_variant := Default
|}.

Definition orderNotFoundToast : Toast := {|
  title := "Order Not Found";
  description := "We couldn't find an order with the provided ID and email. Please check and try again.";
  toast_variant := Destructive
|}.

(** One validation issue of the schema: the field and its message. *)
Definition issue : Type := (string * string)%type.

(** The component's state: the two [useState] cells, the notifications
    issued so far (oldest first), the callbacks handed to [setTimeout] and
    not yet run (oldest first; all have the same delay), and the errors the
    form shows. *)
Record View : Type := mkView {
  trackingResult : js_value;
  loading : bool;
  toasts : list Toast;
  timers : list TrackingForm.values;
  formErrors : list issue
}.

Definition initialView : View := {|
  trackingResult := VNull;
  loading := false;
  toasts := [];
  timers := [];
  formErrors := []
|}.

Definition setTrackingResult (r : js_value) (st : View) : View :=
  mkView r (loading st) (toasts st) (timers st) (formErrors st).

Definition setLoading (b : bool) (st : View) : View :=
  mkView (trackingResult st) b (toasts st) (timers st) (formErrors st).

Definition toast (t : Toast) (st : View) : View :=
  mkView (trackingResult st) (loading st) (toasts st ++ [t]) (timers st)
         (formErrors st).

Definition setTimeout (v : TrackingForm.values) (st : View) : View :=
  mkView (trackingResult st) (loading st) (toasts st) (timers st ++ [v])
         (formErrors st).

Definition setFormErrors (es : list issue) (st : View) : View :=
  mkView (trackingResult st) (loading st) (toasts st) (timers st) es.

(** ** The submit handler *)

(** The body of the callback given to [setTimeout] in [onSubmit]. *)
Definition lookup_callback (values : TrackingForm.values) (st : View) : View :=
  let orderData := get_property (TrackingForm.orderId values) in
  let st :=
    if credentials_match orderData (TrackingForm.email values)
    then toast orderFoundToast (setTrackingResult orderData st)
    else setTrackingResult VNull (toast orderNotFoundToast st)
  in
  setLoading false st.

Definition onSubmit (values : TrackingForm.values) (st : View) : View :=
  setTimeout values (setLoading true st).

(** ** Form validation

    The test behind [z.string().email()] belongs to the schema library and
    is taken as a parameter. *)
Section Validation.

Variable is_email : string -> bool.

(** [trackingFormSchema], as the list of issues it reports. *)
Definition trackingFormSchema (values : TrackingForm.values) : list issue :=
  (if (String.length (TrackingForm.orderId values) <? 3)%nat
   then [("orderId", "Order ID must be at least 3 characters.")]
   else [])
  ++
  (if is_email (TrackingForm.email values)
   then []
   else [("email", "Please enter a valid email address.")]).

(** The schema accepts the values. *)
Definition accepted (values : TrackingForm.values) : Prop :=
  (3 ≤ String.length (TrackingForm.orderId values))%nat ∧
  is_email (TrackingForm.email values) = true.

(** [form.handleSubmit(onSubmit)] with the [zodResolver]: the handler runs
    only on values the schema accepts; otherwise the issues are shown. *)
Definition handleSubmit (values : TrackingForm.values) (st : View) : View :=
  match trackingFormSchema values with
  | [] => onSubmit values (setFormErrors [] st)
  | errs => setFormErrors errs st
  end.

(** What can happen to the page: the form is submitted, or the oldest
    pending timer expires.  The submit button is disabled while [loading]
    holds; a submission is allowed here in every state, which only adds
    runs. *)
Inductive action : Type :=
  | Submit (values : TrackingForm.values)
  | Expire.

Definition step (st : View) (a : action) : View :=
  match a with
  | Submit values => handleSubmit values st
  | Expire =>
      match timers st with
      | [] => st
      | values :: rest =>
          lookup_callback values
            (mkView (trackingResult st) (loading st) (toasts st) rest
                    (formErrors st))
      end
  end.

Definition run (st : View) (trace : list action) : View :=
  fold_left step trace st.

End Validation.

(** A stand-in for the schema library's email test, used to run the page on
    concrete inputs: the address has an [@] that is neither first nor
    last. *)
Definition sample_is_email (s : string) : bool :=
  match index 0 "@" s with
  | Some i => (0 <? i)%nat && (i + 1 <? String.length s)%nat
  | None => false
  end.

(** ** Rendering of the tracking result *)

(** [trackingResult.trackingHistory.find((h) => h.status === "delivered")];
    [None] is [undefined]. *)
Definition find_delivered (r : Order) : option Event.t :=
  List.find (fun h => String.eqb (Event.status h) "delivered")
            (trackingHistory r).

(** The "Delivered on" line: the timestamp handed to [formatDate], nothing
    when the status is not ["delivered"], and a [TypeError] when the
    timestamp is read from [undefined]. *)
Inductive rendered (A : Type) : Type :=
  | Shown (x : A)
  | Hidden
  | TypeError.
Arguments Shown {A} x.
Arguments Hidden {A}.
Arguments TypeError {A}.

Definition deliveredOn (r : Order) : rendered string :=
  if String.eqb (status r) "delivered"
  then match find_delivered r with
       | Some h => Shown (Event.timestamp h)
       | None => TypeError
       end
  else Hidden.

(** The value of the progress bar for a displayed record. *)
Definition progressValue (r : Order) : Z := getProgressPercentage (status r).

(** ** Shape of a tracking history *)

Definition history_statuses (r : Order) : list string :=
  map Event.status (trackingHistory r).

(** The entries of a history are, in order, the lifecycle statuses from
    position [i] on: no status is skipped, repeated or revisited. *)
Fixpoint linear_from (i : nat) (hs : list string) : Prop :=
  match hs with
  | [] => True
  | s :: rest => lifecycle !! i = Some s ∧ linear_from (S i) rest
  end.

(** The timestamps of the table are ISO-8601 strings of one layout
    ([YYYY-MM-DDTHH:MM:SS]); on such strings the order of time is the
    lexicographic order of the characters. *)
Definition earlier (t1 t2 : string) : Prop := String.ltb t1 t2 = true.

Definition history_timestamps (r : Order) : list string :=
  map Event.timestamp (trackingHistory r).

(** ** The submit button *)

(** [disabled={loading}] and the button's text. *)
Definition submitDisabled (st : View) : bool := loading st.

Definition submitLabel (st : View) : string :=
  if loading st then "Searching..." else "Track Order".

Section Page.

Variable is_email : string -> bool.

(** The schema's verdict as a boolean. *)
Definition acceptedb (values : TrackingForm.values) : bool :=
  match trackingFormSchema is_email values with
  | [] => true
  | _ => false
  end.

(** A click on the submit button: nothing happens while it is disabled. *)
Definition click (values : TrackingForm.values) (st : View) : View :=
  if submitDisabled st then st else handleSubmit is_email values st.

(** The page as a user can drive it: submissions go through the button. *)
Definition ui_step (st : View) (a : action) : View :=
  match a with
  | Submit values => click values st
  | Expire => step is_email st Expire
  end.

Definition ui_run (st : View) (trace : list action) : View :=
  fold_left ui_step trace st.

(** The submissions of a trace, in order. *)
Definition submissions (trace : list action) : list TrackingForm.values :=
  omap (fun a => match a with Submit v => Some v | Expire => None end) trace.

End Page.

(** The stored result is [null] or a record that some submission of the
    trace asked for with the right email, and every pending lookup is a
    submission of the trace. *)
Definition provenance (trace : list action) (st : View) : Prop :=
  (∀ v, v ∈ timers st → v ∈ submissions trace) ∧
  (trackingResult st = VNull ∨
   ∃ (o : Order) (v : TrackingForm.values),
     trackingResult st = VOrder o ∧
     v ∈ submissions trace ∧
     mockOrderStatuses !! TrackingForm.orderId v = Some o ∧
     email o = TrackingForm.email v).

(** ** The result card *)

(** [r[key]] for the properties of a record that hold a string; [None] is
    any other outcome of the read, [undefined] for a name the record does
    not have. *)
Definition string_property (r : Order) (key : string) : option string :=
  if String.eqb key "status" then Some (status r)
  else if String.eqb key "customer" then Some (customer r)
  else if String.eqb key "email" then Some (email r)
  else if String.eqb key "orderDate" then Some (orderDate r)
  else if String.eqb key "estimatedDelivery" then Some (estimatedDelivery r)
  else None.

(** [trackingResult.orderId || "ORD123456"]: the empty string and
    [undefined] are falsy. *)
Definition cardTitle (r : Order) : string :=
  match string_property r "orderId" with
  | Some "" | None => "ORD123456"
  | Some id => id
  end.

(** The colours of the status badge. *)
Definition badgeClass (status : string) : string :=
  if String.eqb status "delivered" then "bg-green-100 text-green-800"
  else if String.eqb status "in-transit" then "bg-blue-100 text-blue-800"
  else "bg-yellow-100 text-yellow-800".

(** [{cond && "text"}]: [false] renders as nothing. *)
Definition and_text (cond : bool) (text : string) : string :=
  if cond then text else "".

(** The four conditional texts of the badge (and of a history row). *)
Definition statusLabel (status : string) : string :=
  and_text (String.eqb status "order-placed") "Order Placed" ++
  and_text (String.eqb status "preparing") "Preparing" ++
  and_text (String.eqb status "in-transit") "In Transit" ++
  and_text (String.eqb status "delivered") "Delivered".

(** The four conditional texts of the "Current Status" panel. *)
Definition statusMessage (status : string) : string :=
  and_text (String.eqb status "order-placed") "Your order has been received" ++
  and_text (String.eqb status "preparing") "Your order is being prepared" ++
  and_text (String.eqb status "in-transit") "Your order is on the way" ++
  and_text (String.eqb status "delivered") "Your order has been delivered".

(** The captions above the progress bar, left to right. *)
Definition progressLabels : list string :=
  ["Order Placed"; "Preparing"; "In Transit"; "Delivered"].

(** The four check marks under the bar, left to right: [true] is green
    ([text-green-500]), [false] is grey. *)
Definition checkMarks (status : string) : list bool :=
  [ (getProgressPercentage status >=? 25)%Z;
    (getProgressPercentage status >=? 50)%Z;
    (getProgressPercentage status >=? 75)%Z;
    (getProgressPercentage status >=? 100)%Z ].

Inductive icon : Type := Truck | CheckCircle | Package.

Definition statusIcon (status : string) : icon :=
  if String.eqb status "in-transit" then Truck
  else if String.eqb status "delivered" then CheckCircle
  else Package.

(** The location block of the panel, shown while in transit: the address,
    the timestamp handed to [formatDate] and the coordinates. *)
Definition locationBlock (r : Order) : option (string * string * (Q * Q)) :=
  if String.eqb (status r) "in-transit"
  then Some (address (currentLocation r), estimatedDelivery r,
             (lat (currentLocation r), lng (currentLocation r)))
  else None.

(** One row of the "Tracking History" list. *)
Record HistoryRow : Type := mkHistoryRow {
  markerClass : string;
  connector : bool;
  rowLabel : string;
  rowTimestamp : string;
  rowLocation : string
}.

(** [trackingResult.trackingHistory.map((event, index) => ...)]. *)
Definition renderHistory (history : list Event.t) : list HistoryRow :=
  imap (fun index event => {|
    markerClass := if (index =? 0)%nat then "bg-catering-orange"
                   else "bg-gray-300";
    connector := negb (Z.of_nat index =? Z.of_nat (List.length history) - 1)%Z;
    rowLabel := statusLabel (Event.status event);
    rowTimestamp := Event.timestamp event;
    rowLocation := Event.location event
  |}) history.

(** ** The mobile navigation menu *)

Module MobileNavbar.

(** When a link is drawn as active: [location.pathname === p],
    [location.pathname.includes(p)], or never (a fixed class). *)
Inductive rule : Type :=
  | Equals (p : string)
  | Includes (p : string)
  | Never.

(** Under [<SignedIn>], under [<SignedOut>], or outside both. *)
Inductive audience : Type := Everyone | SignedIn | SignedOut.

Record NavLink : Type := mkLink {
  to : string;
  label : string;
  active : rule;
  shownTo : audience
}.

(** The links of the sheet's [<nav>], top to bottom. *)
Definition links : list NavLink := [
  mkLink "/" "Home" (Equals "/") Everyone;
  mkLink "/vendors" "Vendors" (Includes "/vendors") Everyone;
  mkLink "/bookings" "My Bookings" (Includes "/bookings") SignedIn;
  mkLink "/profile" "Profile" (Equals "/profile") SignedIn;
  mkLink "/dashboard" "Dashboard" (Equals "/dashboard") SignedIn;
  mkLink "/vendor/dashboard" "Vendor Dashboard" (Equals "/vendor/dashboard")
         SignedIn;
  mkLink "/vendor/menus" "Manage Menus" (Equals "/vendor/menus") SignedIn;
  mkLink "/admin/dashboard" "Admin Dashboard" (Equals "/admin/dashboard")
         SignedIn;
  mkLink "/admin/users" "Manage Users" (Equals "/admin/users") SignedIn;
  mkLink "/sign-in" "Sign In" Never SignedOut
].

(** [hay.includes(needle)]: [needle] occurs in [hay] at some position. *)
Fixpoint includes (needle hay : string) : bool :=
  String.prefix needle hay ||
  match hay with
  | EmptyString => false
  | String _ rest => includes needle rest
  end.

Definition isActive (l : NavLink) (pathname : string) : bool :=
  match active l with
  | Equals p => String.eqb pathname p
  | Includes p => includes p pathname
  | Never => false
  end.

Definition visible (signedIn : bool) (l : NavLink) : bool :=
  match shownTo l with
  | Everyone => true
  | SignedIn => signedIn
  | SignedOut => negb signedIn
  end.

(** The links drawn as active on a page, for a signed-in or signed-out
    visitor. *)
Definition activeLinks (signedIn : bool) (pathname : string) : list NavLink :=
  filter (fun l => visible signedIn l && isActive l pathname = true) links.

End MobileNavbar.

(** ** The routes of [App] *)

Module App.

(** A child of the layout route: its [path] (the index route has the empty
    path), the page it renders, and whether the page is wrapped in
    [ProtectedRoute]. *)
Record route : Type := mkRoute {
  path : string;
  element : string;
  protected : bool
}.

Definition routes : list route := [
  mkRoute "" "HomePage" false;
  mkRoute "vendors" "VendorPage" false;
  mkRoute "vendors/:id" "VendorDetails" false;
  mkRoute "dashboard" "Dashboard" true;
  mkRoute "bookings" "Bookings" true;
  mkRoute "bookings/:id" "BookingDetails" true;
  mkRoute "profile" "Profile" true;
  mkRoute "vendor/dashboard" "VendorDashboard" true;
  mkRoute "vendor/menus" "VendorMenus" true;
  mkRoute "vendor/orders" "VendorOrders" true;
  mkRoute "admin/dashboard" "AdminDashboard" true;
  mkRoute "admin/users" "AdminUsers" true;
  mkRoute "admin/vendors" "AdminVendors" true;
  mkRoute "*" "NotFound" false
].

(** The route declared under exactly this path of the layout route
    ["/"]. *)
Definition declared (pathname : string) : option route :=
  List.find (fun r => String.eqb pathname ("/" ++ path r)) routes.

End App.

(** * Properties *)

(** ** The static table *)

Lemma mockOrderStatuses_lookup (key : string) (o : Order) :
  mockOrderStatuses !! key = Some o ↔
  (key = "ORD123456" ∧ o = ORD123456) ∨ (key = "ORD789012" ∧ o = ORD789012).
Proof.
  unfold mockOrderStatuses.
  rewrite !lookup_insert_Some, lookup_empty. split.
  - intros [[<- <-] | [_ [[<- <-] | [_ [=]]]]]; auto.
  - intros [[-> ->] | [-> ->]]; [by left | right]. split; [done | by left].
Qed.

(** Case analysis over the records of the table. *)
Ltac each_order H :=
  apply mockOrderStatuses_lookup in H as [[-> ->] | [-> ->]].

Lemma get_property_order (key : string) (o : Order) :
  get_property key = VOrder o ↔ mockOrderStatuses !! key = Some o.
Proof.
  unfold get_property.
  destruct (mockOrderStatuses !! key) as [o'|].
  - split; intros H; congruence.
  - destruct (existsb _ _); split; intros H; discriminate.
Qed.

Lemma credentials_match_order (v : js_value) (given : string) :
  credentials_match v given = true ↔ ∃ o, v = VOrder o ∧ email o = given.
Proof.
  unfold credentials_match. split.
  - destruct v as [| |o|name]; simpl; try discriminate.
    intros H%String.eqb_eq. eauto.
  - intros (o & -> & <-). simpl. apply String.eqb_refl.
Qed.

Lemma credentials_match_table (key given : string) :
  credentials_match (get_property key) given = true ↔
  ∃ o, mockOrderStatuses !! key = Some o ∧ email o = given.
Proof.
  rewrite credentials_match_order.
  split; intros (o & H & He); exists o; split; auto;
    by apply get_property_order.
Qed.

(** The two outcomes of the delayed lookup, on the whole view. *)
Lemma lookup_callback_found (values : TrackingForm.values) (st : View) :
  credentials_match (get_property (TrackingForm.orderId values))
                    (TrackingForm.email values) = true →
  lookup_callback values st =
  mkView (get_property (TrackingForm.orderId values)) false
         (toasts st ++ [orderFoundToast]) (timers st) (formErrors st).
Proof. intros H. unfold lookup_callback. by rewrite H. Qed.

Lemma lookup_callback_not_found (values : TrackingForm.values) (st : View) :
  credentials_match (get_property (TrackingForm.orderId values))
                    (TrackingForm.email values) = false →
  lookup_callback values st =
  mkView VNull false (toasts st ++ [orderNotFoundToast]) (timers st)
         (formErrors st).
Proof. intros H. unfold lookup_callback. by rewrite H. Qed.

(** ** Status-to-progress mapping *)

Lemma getProgressPercentage_other (s : string) :
  s ∉ lifecycle → getProgressPercentage s = 0%Z.
Proof.
  intros Hs. unfold getProgressPercentage.
  repeat match goal with
  | |- context [String.eqb s ?lit] =>
      let E := fresh "E" in
      destruct (String.eqb_spec s lit) as [E|_];
        [exfalso; apply Hs; rewrite E; apply list_elem_of_In; simpl; tauto|]
  end.
  reflexivity.
Qed.

(** C1: the mapping sends the four lifecycle statuses, in lifecycle order,
    to 25, 50, 75 and 100, and every other string to 0; it is a function of
    its argument alone (it neither reads nor changes the view). *)
Theorem getProgressPercentage_spec :
  map getProgressPercentage lifecycle = [25; 50; 75; 100]%Z ∧
  getProgressPercentage "order-placed" = 25%Z ∧
  getProgressPercentage "preparing" = 50%Z ∧
  getProgressPercentage "in-transit" = 75%Z ∧
  getProgressPercentage "delivered" = 100%Z ∧
  (∀ s : string, s ∉ lifecycle → getProgressPercentage s = 0%Z) ∧
  (∀ s : string, s ∈ lifecycle ↔ getProgressPercentage s ≠ 0%Z).
Proof.
  repeat split; try reflexivity.
  - apply getProgressPercentage_other.
  - unfold lifecycle. intros Hs.
    repeat (apply elem_of_cons in Hs as [->|Hs]; [by vm_compute|]).
    by apply elem_of_nil in Hs.
  - intros Hs. destruct (decide (s ∈ lifecycle)) as [|Hn]; [done|].
    by apply getProgressPercentage_other in Hn.
Qed.

Lemma getProgressPercentage_spec_witness :
  getProgressPercentage "cancelled" = 0%Z.
Proof.
  apply (proj1 (proj2 (proj2 (proj2 (proj2 (proj2 getProgressPercentage_spec)))))).
  unfold lifecycle. intros H.
  repeat (apply elem_of_cons in H as [H|H]; [discriminate H|]).
  by apply elem_of_nil in H.
Defined.

(** ** Order lookup *)

(** C2: the delayed lookup stores a record exactly when the table has a
    record under the given id whose email equals the given email, and then
    it stores that record and announces it; in every other case it stores
    [null] and announces that the order was not found. *)
Theorem lookup_exact_match (values : TrackingForm.values) (st : View) :
  let st' := lookup_callback values st in
  (∀ o : Order,
     trackingResult st' = VOrder o ↔
     mockOrderStatuses !! TrackingForm.orderId values = Some o ∧
     email o = TrackingForm.email values) ∧
  (trackingResult st' = VNull ↔
     ¬ ∃ o : Order,
         mockOrderStatuses !! TrackingForm.orderId values = Some o ∧
         email o = TrackingForm.email values) ∧
  (toasts st' = (toasts st ++ [orderFoundToast])%list ↔
     ∃ o : Order, trackingResult st' = VOrder o) ∧
  (toasts st' = (toasts st ++ [orderNotFoundToast])%list ↔
     trackingResult st' = VNull).
Proof.
  destruct values as [id given]. cbn zeta.
  destruct (credentials_match (get_property id) given) eqn:Hm.
  - rewrite (lookup_callback_found (TrackingForm.mk id given) st Hm). simpl.
    pose proof Hm as (o & Ho & He)%credentials_match_table.
    apply get_property_order in Ho as Hg. rewrite Hg.
    split; [|split; [|split]].
    + intros o'. split.
      * intros [= <-]. done.
      * intros [Ho' _]. congruence.
    + split; [discriminate|]. intros H. exfalso. apply H. eauto.
    + split; eauto.
    + split; [|discriminate]. intros H%app_inv_head. discriminate.
  - rewrite (lookup_callback_not_found (TrackingForm.mk id given) st Hm). simpl.
    assert (Hn : ¬ ∃ o, mockOrderStatuses !! id = Some o ∧ email o = given).
    { intros H%credentials_match_table. congruence. }
    split; [|split; [|split]].
    + intros o'. split; [discriminate|].
      intros [Ho He]. exfalso. apply Hn. eauto.
    + done.
    + split; [|intros [o Ho]; discriminate].
      intros H%app_inv_head. discriminate.
    + done.
Qed.

Lemma lookup_exact_match_witness :
  trackingResult
    (lookup_callback (TrackingForm.mk "ORD789012" "test@example.com")
                     initialView) = VOrder ORD789012.
Proof.
  apply (proj1 (lookup_exact_match
                  (TrackingForm.mk "ORD789012" "test@example.com")
                  initialView)).
  split; reflexivity.
Defined.

(** The comparison of the email is exact: another case, a prefix or
    surrounding blanks do not match, and neither does a right email under
    a wrong id or under a name inherited from [Object.prototype]. *)
Example lookup_is_case_sensitive :
  ∀ st, trackingResult
          (lookup_callback (TrackingForm.mk "ORD123456" "Test@Example.com") st)
        = VNull.
Proof. reflexivity. Qed.

Example lookup_id_is_case_sensitive :
  ∀ st, trackingResult
          (lookup_callback (TrackingForm.mk "ord123456" "test@example.com") st)
        = VNull.
Proof. reflexivity. Qed.

Example lookup_rejects_partial_email :
  ∀ st, trackingResult
          (lookup_callback (TrackingForm.mk "ORD123456" "test@example") st)
        = VNull
        ∧ trackingResult
          (lookup_callback (TrackingForm.mk "ORD123456" " test@example.com") st)
        = VNull.
Proof. split; reflexivity. Qed.

Example lookup_rejects_inherited_name :
  get_property "constructor" = VInherited "constructor" ∧
  ∀ given st,
    trackingResult
      (lookup_callback (TrackingForm.mk "constructor" given) st) = VNull.
Proof. split; reflexivity. Qed.

(** ** Shape of the tracking histories *)

Lemma lifecycle_progress (i : nat) (s : string) :
  lifecycle !! i = Some s → getProgressPercentage s = (25 * (Z.of_nat i + 1))%Z.
Proof.
  unfold lifecycle.
  do 4 (destruct i as [|i]; [intros [= <-]; reflexivity|]).
  discriminate.
Qed.

Lemma linear_from_take (hs : list string) :
  ∀ i, linear_from i hs → hs = take (List.length hs) (drop i lifecycle).
Proof.
  induction hs as [|s rest IH]; intros i; [done|].
  intros [Hs Hrest].
  rewrite (drop_S _ _ _ Hs). cbn [List.length firstn]. f_equal. by apply IH.
Qed.

Lemma linear_from_sorted (hs : list string) :
  ∀ i, linear_from i hs → Sorted Z.le (map getProgressPercentage hs).
Proof.
  induction hs as [|s rest IH]; intros i; simpl; [constructor|].
  intros [Hs Hrest]. constructor; [by eapply IH|].
  destruct rest as [|s' rest']; simpl; constructor.
  destruct Hrest as [Hs' _].
  rewrite (lifecycle_progress _ _ Hs), (lifecycle_progress _ _ Hs'). lia.
Qed.

(** C3, as the code has it: the status recorded at placement is named
    ["order-placed"] (it heads every history, with the order's date), the
    mapping sends it to 25, and no record carries a status named
    ["placed"]. *)
Theorem placement_status_is_order_placed (id : string) (o : Order) :
  mockOrderStatuses !! id = Some o →
  (∃ h : Event.t,
     head (trackingHistory o) = Some h ∧
     Event.status h = "order-placed" ∧
     Event.timestamp h = orderDate o) ∧
  getProgressPercentage "order-placed" = 25%Z ∧
  status o ≠ "placed" ∧
  "placed" ∉ history_statuses o.
Proof.
  intros H. each_order H.
  - split; [eexists; repeat split|]. repeat split; [discriminate|].
    intros Hin%list_elem_of_In. simpl in Hin.
    repeat destruct Hin as [Hin|Hin]; try discriminate Hin. done.
  - split; [eexists; repeat split|]. repeat split; [discriminate|].
    intros Hin%list_elem_of_In. simpl in Hin.
    repeat destruct Hin as [Hin|Hin]; try discriminate Hin. done.
Qed.

Lemma placement_status_is_order_placed_witness :
  getProgressPercentage "order-placed" = 25%Z.
Proof.
  apply (placement_status_is_order_placed "ORD123456" ORD123456).
  reflexivity.
Defined.

(** C3, as the claim words it, fails: ["placed"] is not a status of the
    mapping and is sent to 0. *)
Lemma placed_is_not_a_status :
  getProgressPercentage "placed" = 0%Z ∧
  getProgressPercentage "placed" ≠ 25%Z ∧
  "placed" ∉ lifecycle.
Proof.
  split; [reflexivity|]. split; [discriminate|].
  intros Hin%list_elem_of_In. simpl in Hin.
  repeat destruct Hin as [Hin|Hin]; try discriminate Hin. done.
Qed.

(** C4: in every record of the table the last entry of the history carries
    the record's current status. *)
Theorem last_history_status_is_current (id : string) (o : Order) :
  mockOrderStatuses !! id = Some o →
  Event.status <$> last (trackingHistory o) = Some (status o).
Proof. intros H. each_order H; reflexivity. Qed.

Lemma last_history_status_is_current_witness :
  Event.status <$> last (trackingHistory ORD789012) = Some "delivered".
Proof.
  apply (last_history_status_is_current "ORD789012" ORD789012).
  reflexivity.
Defined.

(** C5: in every record of the table the history is not empty and its
    statuses are the lifecycle statuses in order, starting from the first
    and advancing one stage per entry; hence it is an initial segment of the
    lifecycle and its progress values never decrease. *)
Theorem history_is_linear (id : string) (o : Order) :
  mockOrderStatuses !! id = Some o →
  let hs := history_statuses o in
  hs ≠ [] ∧
  linear_from 0 hs ∧
  hs = take (List.length hs) lifecycle ∧
  Sorted Z.le (map getProgressPercentage hs) ∧
  Sorted Z.lt (map getProgressPercentage hs).
Proof.
  intros H hs.
  assert (Hlin : linear_from 0 hs) by (each_order H; vm_compute; tauto).
  split; [each_order H; discriminate|].
  split; [done|].
  split; [by apply (linear_from_take hs 0)|].
  split; [by apply (linear_from_sorted hs 0)|].
  each_order H; vm_compute; repeat constructor.
Qed.

Lemma history_is_linear_witness :
  history_statuses ORD123456 = take 3 lifecycle.
Proof.
  apply (proj1 (proj2 (proj2
    (history_is_linear "ORD123456" ORD123456 eq_refl)))).
Defined.

(** ** Documented lookups *)

(** C6: the lookup of ["ORD123456"] with ["test@example.com"] stores a
    record with status ["in-transit"] and progress 75; the lookup of
    ["ORD789012"] with the same email stores a record with status
    ["delivered"] and progress 100.  Both announce that the order was
    found. *)
Theorem documented_lookups (st : View) :
  (∃ o : Order,
     trackingResult
       (lookup_callback (TrackingForm.mk "ORD123456" "test@example.com") st)
     = VOrder o ∧
     status o = "in-transit" ∧ progressValue o = 75%Z) ∧
  (∃ o : Order,
     trackingResult
       (lookup_callback (TrackingForm.mk "ORD789012" "test@example.com") st)
     = VOrder o ∧
     status o = "delivered" ∧ progressValue o = 100%Z) ∧
  last (toasts
          (lookup_callback (TrackingForm.mk "ORD123456" "test@example.com") st))
  = Some orderFoundToast ∧
  last (toasts
          (lookup_callback (TrackingForm.mk "ORD789012" "test@example.com") st))
  = Some orderFoundToast.
Proof.
  split; [exists ORD123456; by repeat split|].
  split; [exists ORD789012; by repeat split|].
  split; cbn; apply last_snoc.
Qed.

(** The two outcomes of a lookup, as whole views. *)
Lemma lookup_callback_outcomes (values : TrackingForm.values) (st : View) :
  (∃ o : Order,
     mockOrderStatuses !! TrackingForm.orderId values = Some o ∧
     email o = TrackingForm.email values ∧
     lookup_callback values st =
     mkView (VOrder o) false (toasts st ++ [orderFoundToast])%list (timers st)
            (formErrors st))
  ∨
  ((¬ ∃ o : Order,
       mockOrderStatuses !! TrackingForm.orderId values = Some o ∧
       email o = TrackingForm.email values) ∧
   lookup_callback values st =
   mkView VNull false (toasts st ++ [orderNotFoundToast])%list (timers st)
          (formErrors st)).
Proof.
  destruct (credentials_match (get_property (TrackingForm.orderId values))
                              (TrackingForm.email values)) eqn:Hm.
  - left. pose proof Hm as (o & Ho & He)%credentials_match_table.
    exists o. repeat split; try done.
    rewrite (lookup_callback_found values st Hm).
    apply get_property_order in Ho. by rewrite Ho.
  - right. split.
    + intros H%credentials_match_table. congruence.
    + by apply lookup_callback_not_found.
Qed.

(** C7: with the id ["ORD000000"] the lookup fails for every email: it
    stores [null] and issues the "Order Not Found" notification.  That
    notification is the only failure of a lookup: every lookup either finds
    a record and announces it, or ends in exactly this way. *)
Theorem unknown_order_not_found :
  (∀ (given : string) (st : View),
     lookup_callback (TrackingForm.mk "ORD000000" given) st =
     mkView VNull false (toasts st ++ [orderNotFoundToast])%list (timers st)
            (formErrors st)) ∧
  (∀ (values : TrackingForm.values) (st : View),
     (∃ o : Order,
        lookup_callback values st =
        mkView (VOrder o) false (toasts st ++ [orderFoundToast])%list
               (timers st) (formErrors st))
     ∨
     lookup_callback values st =
     mkView VNull false (toasts st ++ [orderNotFoundToast])%list (timers st)
            (formErrors st)).
Proof.
  split.
  - reflexivity.
  - intros values st.
    destruct (lookup_callback_outcomes values st)
      as [(o & _ & _ & H) | [_ H]]; eauto.
Qed.

(** C8: a lookup that matches no record sets the stored result to [null],
    whatever was stored before. *)
Theorem failed_lookup_clears_result (values : TrackingForm.values) (st : View) :
  (∀ o : Order,
     mockOrderStatuses !! TrackingForm.orderId values = Some o →
     email o ≠ TrackingForm.email values) →
  trackingResult (lookup_callback values st) = VNull.
Proof.
  intros Hno.
  destruct (lookup_callback_outcomes values st)
    as [(o & Ho & He & _) | [_ ->]]; [|done].
  by destruct (Hno o Ho).
Qed.

Lemma failed_lookup_clears_result_witness :
  trackingResult (setTrackingResult (VOrder ORD789012) initialView)
  = VOrder ORD789012 ∧
  trackingResult
    (lookup_callback (TrackingForm.mk "ORD123456" "nobody@example.com")
       (setTrackingResult (VOrder ORD789012) initialView)) = VNull.
Proof.
  split; [reflexivity|].
  apply (failed_lookup_clears_result
           (TrackingForm.mk "ORD123456" "nobody@example.com")).
  intros o H. vm_compute in H. injection H as <-. discriminate.
Defined.

(** ** Missing "delivered" entry *)

(** C10: a record of the table whose status is ["delivered"] has a history
    entry with that status, [find] returns it, and the "Delivered on" line
    reads its timestamp. *)
Theorem delivered_record_has_delivered_entry (id : string) (o : Order) :
  mockOrderStatuses !! id = Some o →
  status o = "delivered" →
  ∃ h : Event.t,
    h ∈ trackingHistory o ∧
    Event.status h = "delivered" ∧
    find_delivered o = Some h ∧
    deliveredOn o = Shown (Event.timestamp h).
Proof.
  intros H Hst. each_order H; [discriminate Hst|].
  exists (Event.mk "delivered" "2023-11-14T12:40:00" "Destination").
  split; [|by repeat split].
  apply list_elem_of_In. simpl. tauto.
Qed.

Lemma delivered_record_has_delivered_entry_witness :
  ∃ h : Event.t,
    h ∈ trackingHistory ORD789012 ∧
    Event.status h = "delivered" ∧
    find_delivered ORD789012 = Some h ∧
    deliveredOn ORD789012 = Shown (Event.timestamp h).
Proof.
  apply (delivered_record_has_delivered_entry "ORD789012" ORD789012);
    reflexivity.
Defined.

(** No record of the table makes the "Delivered on" line fail. *)
Lemma deliveredOn_never_fails (id : string) (o : Order) :
  mockOrderStatuses !! id = Some o → deliveredOn o ≠ TypeError.
Proof. intros H. each_order H; discriminate. Qed.

(** ** Validation before the lookup *)

Section ValidationProperties.

Variable is_email : string -> bool.

Lemma trackingFormSchema_nil (values : TrackingForm.values) :
  trackingFormSchema is_email values = [] ↔ accepted is_email values.
Proof.
  unfold trackingFormSchema, accepted.
  destruct (Nat.ltb_spec (String.length (TrackingForm.orderId values)) 3);
    destruct (is_email (TrackingForm.email values)); simpl;
    split; try discriminate; try done; intros [? ?]; try discriminate; lia.
Qed.

Lemma handleSubmit_accepted (values : TrackingForm.values) (st : View) :
  accepted is_email values →
  handleSubmit is_email values st =
  mkView (trackingResult st) true (toasts st) (timers st ++ [values])%list [].
Proof.
  intros H%trackingFormSchema_nil. unfold handleSubmit. by rewrite H.
Qed.

Lemma handleSubmit_rejected (values : TrackingForm.values) (st : View) :
  ¬ accepted is_email values →
  handleSubmit is_email values st =
  setFormErrors (trackingFormSchema is_email values) st
  ∧ trackingFormSchema is_email values ≠ [].
Proof.
  intros H. unfold handleSubmit.
  destruct (trackingFormSchema is_email values) eqn:E; [|done].
  by apply trackingFormSchema_nil in E.
Qed.

Lemma lookup_callback_timers (values : TrackingForm.values) (st : View) :
  timers (lookup_callback values st) = timers st.
Proof.
  destruct (lookup_callback_outcomes values st)
    as [(o & _ & _ & ->) | [_ ->]]; reflexivity.
Qed.

(** Every pending timer holds values the schema accepted. *)
Lemma step_pending_accepted (st : View) (a : action) :
  Forall (accepted is_email) (timers st) →
  Forall (accepted is_email) (timers (step is_email st a)).
Proof.
  intros Hst. destruct a as [values|]; simpl.
  - destruct (trackingFormSchema is_email values) eqn:E.
    + apply trackingFormSchema_nil in E as Hacc.
      rewrite (handleSubmit_accepted values st Hacc). simpl.
      apply Forall_app. split; [done|]. by constructor.
    + unfold handleSubmit. by rewrite E.
  - destruct (timers st) as [|values rest] eqn:E; [by rewrite E|].
    rewrite lookup_callback_timers. simpl. by inversion Hst.
Qed.

Lemma run_pending_accepted (trace : list action) :
  ∀ st, Forall (accepted is_email) (timers st) →
        Forall (accepted is_email) (timers (run is_email st trace)).
Proof.
  induction trace as [|a trace IH]; intros st Hst; [done|].
  simpl. apply IH. by apply step_pending_accepted.
Qed.

(** C9: along every run of the page a lookup is pending (and so is
    performed) only for values whose order id has at least 3 characters
    and whose email passes the schema's test; submitting values that fail
    either test schedules nothing and leaves the stored result, the
    loading flag and the notifications as they were. *)
Theorem lookup_only_after_validation :
  (∀ (trace : list action) (values : TrackingForm.values)
     (rest : list TrackingForm.values),
     timers (run is_email initialView trace) = values :: rest →
     (3 ≤ String.length (TrackingForm.orderId values))%nat ∧
     is_email (TrackingForm.email values) = true) ∧
  (∀ (values : TrackingForm.values) (st : View),
     (String.length (TrackingForm.orderId values) < 3)%nat ∨
     is_email (TrackingForm.email values) = false →
     let st' := handleSubmit is_email values st in
     trackingResult st' = trackingResult st ∧
     timers st' = timers st ∧
     toasts st' = toasts st ∧
     loading st' = loading st ∧
     formErrors st' ≠ []).
Proof.
  split.
  - intros trace values rest E.
    assert (H : Forall (accepted is_email) (timers (run is_email initialView trace)))
      by (apply run_pending_accepted; constructor).
    rewrite E in H. by inversion H.
  - intros values st Hbad st'.
    assert (Hrej : ¬ accepted is_email values).
    { intros [Hlen Hmail]. destruct Hbad as [Hbad|Hbad]; [lia|congruence]. }
    destruct (handleSubmit_rejected values st Hrej) as [E Hne].
    subst st'. rewrite E. by repeat split.
Qed.

End ValidationProperties.

Lemma lookup_only_after_validation_witness :
  let st := setTrackingResult (VOrder ORD123456) initialView in
  trackingResult
    (handleSubmit sample_is_email (TrackingForm.mk "OR" "test@example.com") st)
  = VOrder ORD123456 ∧
  trackingResult
    (handleSubmit sample_is_email (TrackingForm.mk "ORD123456" "test") st)
  = VOrder ORD123456.
Proof.
  split.
  - apply (proj2 (lookup_only_after_validation sample_is_email)
             (TrackingForm.mk "OR" "test@example.com")).
    left. simpl. lia.
  - apply (proj2 (lookup_only_after_validation sample_is_email)
             (TrackingForm.mk "ORD123456" "test")).
    right. reflexivity.
Defined.

(** A whole session: a successful lookup, then a failed one that clears
    the displayed record, then a rejected submission that changes
    nothing. *)
Example session :
  let good := TrackingForm.mk "ORD789012" "test@example.com" in
  let bad := TrackingForm.mk "ORD789012" "other@example.com" in
  let short := TrackingForm.mk "OR" "test@example.com" in
  let r := run sample_is_email initialView in
  trackingResult (r [Submit good; Expire]) = VOrder ORD789012 ∧
  loading (r [Submit good]) = true ∧
  trackingResult (r [Submit good; Expire; Submit bad]) = VOrder ORD789012 ∧
  trackingResult (r [Submit good; Expire; Submit bad; Expire]) = VNull ∧
  toasts (r [Submit good; Expire; Submit bad; Expire])
  = [orderFoundToast; orderNotFoundToast] ∧
  trackingResult (r [Submit good; Expire; Submit short; Expire])
  = VOrder ORD789012 ∧
  formErrors (r [Submit good; Expire; Submit short])
  = [("orderId", "Order ID must be at least 3 characters.")].
Proof. repeat split. Qed.

(** * Further properties of the page *)

(** ** Runs of the page *)

Section PageProperties.

Variable is_email : string -> bool.

Lemma run_snoc (st : View) (trace : list action) (a : action) :
  run is_email st (trace ++ [a]) = step is_email (run is_email st trace) a.
Proof. unfold run. by rewrite fold_left_app. Qed.

Lemma submissions_snoc (trace : list action) (a : action) :
  submissions (trace ++ [a]) = (submissions trace ++ submissions [a])%list.
Proof. unfold submissions. apply omap_app. Qed.

Lemma acceptedb_true (values : TrackingForm.values) :
  acceptedb is_email values = true ↔ accepted is_email values.
Proof.
  rewrite <- trackingFormSchema_nil. unfold acceptedb.
  destruct (trackingFormSchema is_email values); split; congruence.
Qed.

Lemma handleSubmit_cases (values : TrackingForm.values) (st : View) :
  (acceptedb is_email values = true ∧
   handleSubmit is_email values st =
   mkView (trackingResult st) true (toasts st) (timers st ++ [values])%list [])
  ∨
  (acceptedb is_email values = false ∧
   handleSubmit is_email values st =
   setFormErrors (trackingFormSchema is_email values) st).
Proof.
  destruct (acceptedb is_email values) eqn:E.
  - left. split; [done|].
    by apply handleSubmit_accepted, acceptedb_true.
  - right. split; [done|].
    apply handleSubmit_rejected. intros H%acceptedb_true. congruence.
Qed.

(** X1: for every record of the table, submitting its id with its email
    (an email the schema's test accepts) to a page with no lookup pending
    and letting the timer expire displays exactly that record: the record
    is stored, loading is off, nothing is pending, no form error is shown
    and one "Order Found" notification was added. *)
Theorem submit_then_expire_displays (id : string) (o : Order) (st : View) :
  mockOrderStatuses !! id = Some o →
  is_email (email o) = true →
  timers st = [] →
  run is_email st [Submit (TrackingForm.mk id (email o)); Expire] =
  mkView (VOrder o) false (toasts st ++ [orderFoundToast])%list [] [].
Proof.
  intros Ho Hmail Hst.
  assert (Hacc : accepted is_email (TrackingForm.mk id (email o))).
  { split; [|done]. simpl. pose proof Ho as Ho'. each_order Ho'; simpl; lia. }
  unfold run. simpl.
  rewrite (handleSubmit_accepted is_email _ st Hacc). simpl. rewrite Hst. simpl.
  assert (Hm : credentials_match (get_property id) (email o) = true)
    by (apply credentials_match_table; eauto).
  rewrite (lookup_callback_found (TrackingForm.mk id (email o)) _ Hm). simpl.
  apply get_property_order in Ho. by rewrite Ho.
Qed.

Lemma provenance_mono (trace : list action) (a : action) (st : View) :
  provenance trace st → provenance (trace ++ [a]) st.
Proof.
  intros [Ht Hr]. split.
  - intros v Hv. rewrite submissions_snoc. apply elem_of_app. auto.
  - destruct Hr as [Hr | (o & v & Hr & Hv & Ho & He)]; [by left|].
    right. exists o, v. repeat split; try done.
    rewrite submissions_snoc. apply elem_of_app. auto.
Qed.

Lemma provenance_step (trace : list action) (a : action) (st : View) :
  provenance trace st → provenance (trace ++ [a]) (step is_email st a).
Proof.
  intros Hinv. destruct a as [values|]; simpl.
  - pose proof (provenance_mono trace (Submit values) st Hinv) as [Ht Hr].
    destruct (handleSubmit_cases values st) as [[_ ->] | [_ ->]]; simpl.
    + split; [|done]. intros v [Hv | ->%list_elem_of_singleton]%elem_of_app.
      * by apply Ht.
      * rewrite submissions_snoc. apply elem_of_app. right. by left.
    + by split.
  - pose proof (provenance_mono trace Expire st Hinv) as [Ht Hr].
    destruct (timers st) as [|values rest] eqn:E; [by split; [rewrite E|]|].
    assert (Hv : values ∈ submissions (trace ++ [Expire])) by (apply Ht; left).
    assert (Hrest : ∀ v, v ∈ rest → v ∈ submissions (trace ++ [Expire]))
      by (intros v Hin; apply Ht; by right).
    match goal with |- provenance _ (lookup_callback values ?s) =>
      destruct (lookup_callback_outcomes values s)
        as [(o & Ho & He & ->) | [_ ->]] end; simpl.
    + split; [done|]. right. by exists o, values.
    + split; [done|]. by left.
Qed.

(** X2: along every run from the initial view the stored result is either
    [null] or a record of the table that one of the submissions made so far
    named by its id together with its email; in particular it is never
    [undefined] nor a member inherited from [Object.prototype]. *)
Theorem displayed_record_was_asked_for (trace : list action) :
  let st := run is_email initialView trace in
  trackingResult st = VNull ∨
  ∃ (o : Order) (v : TrackingForm.values),
    trackingResult st = VOrder o ∧
    v ∈ submissions trace ∧
    mockOrderStatuses !! TrackingForm.orderId v = Some o ∧
    email o = TrackingForm.email v.
Proof.
  cbn zeta.
  enough (H : provenance trace (run is_email initialView trace)) by apply H.
  induction trace as [|a trace IH] using rev_ind.
  - split; [|by left]. intros v Hv. simpl in Hv. by apply elem_of_nil in Hv.
  - rewrite run_snoc. by apply provenance_step.
Qed.

Lemma lookup_callback_toasts (values : TrackingForm.values) (st : View) :
  ∃ t, (t = orderFoundToast ∨ t = orderNotFoundToast) ∧
       toasts (lookup_callback values st) = (toasts st ++ [t])%list.
Proof.
  destruct (lookup_callback_outcomes values st)
    as [(o & _ & _ & ->) | [_ ->]]; simpl; eauto.
Qed.

(** X3: along every run from the initial view each submission the schema
    accepted has either its lookup still pending or produced exactly one
    notification, and nothing else notifies: the notifications and the
    pending lookups together are as many as the accepted submissions, and
    every notification is "Order Found" or "Order Not Found". *)
Theorem one_notification_per_lookup (trace : list action) :
  let st := run is_email initialView trace in
  (List.length (toasts st) + List.length (timers st))%nat
  = List.length (List.filter (acceptedb is_email) (submissions trace)) ∧
  Forall (fun t => t = orderFoundToast ∨ t = orderNotFoundToast) (toasts st).
Proof.
  cbn zeta. induction trace as [|a trace [IHn IHt]] using rev_ind.
  - split; [reflexivity|constructor].
  - rewrite run_snoc, submissions_snoc, List.filter_app, length_app.
    remember (run is_email initialView trace) as st eqn:Est. clear Est.
    destruct a as [values|]; simpl.
    + destruct (handleSubmit_cases values st) as [[E ->] | [E ->]];
        rewrite E; simpl; [|split; [lia|done]].
      rewrite length_app. simpl. split; [lia|done].
    + destruct (timers st) as [|values rest] eqn:Et;
        [rewrite Et; split; [simpl in *; lia|done]|].
      rewrite lookup_callback_timers.
      match goal with |- context [lookup_callback values ?s] =>
        destruct (lookup_callback_toasts values s) as (t & Ht & ->) end.
      simpl in *. rewrite length_app. simpl. split; [lia|].
      apply Forall_app. split; [done|]. by constructor.
Qed.

(** The page as the button allows it: either idle, or busy with exactly one
    lookup pending. *)
Lemma ui_step_idle_or_busy (st : View) (a : action) :
  (loading st = false ∧ timers st = []) ∨
  (loading st = true ∧ ∃ v, timers st = [v]) →
  let st' := ui_step is_email st a in
  (loading st' = false ∧ timers st' = []) ∨
  (loading st' = true ∧ ∃ v, timers st' = [v]).
Proof.
  intros [[Hl Ht] | [Hl [v Ht]]]; destruct a as [values|]; simpl;
    unfold click, submitDisabled; rewrite Hl.
  - destruct (handleSubmit_cases values st) as [[_ ->] | [_ ->]]; simpl.
    + right. rewrite Ht. eauto.
    + by left.
  - rewrite Ht. by left.
  - right. eauto.
  - rewrite Ht. left. rewrite lookup_callback_timers.
    split; [|done].
    match goal with |- context [lookup_callback v ?s] =>
      destruct (lookup_callback_outcomes v s)
        as [(o & _ & _ & ->) | [_ ->]] end; reflexivity.
Qed.

(** X4: when submissions go through the button, which is disabled while
    loading, at most one lookup is ever pending, and the page is loading
    (the button is disabled and reads "Searching...") exactly while one
    is. *)
Theorem at_most_one_pending_lookup (trace : list action) :
  let st := ui_run is_email initialView trace in
  (List.length (timers st) ≤ 1)%nat ∧
  (loading st = true ↔ timers st ≠ []) ∧
  (submitLabel st = "Searching..." ↔ timers st ≠ []) ∧
  (submitDisabled st = true ↔ timers st ≠ []).
Proof.
  cbn zeta.
  assert (H : (loading (ui_run is_email initialView trace) = false ∧
               timers (ui_run is_email initialView trace) = []) ∨
              (loading (ui_run is_email initialView trace) = true ∧
               ∃ v, timers (ui_run is_email initialView trace) = [v])).
  { induction trace as [|a trace IH] using rev_ind; [by left|].
    unfold ui_run. rewrite fold_left_app. simpl.
    by apply ui_step_idle_or_busy. }
  unfold submitLabel, submitDisabled.
  destruct H as [[-> ->] | [-> [v ->]]]; simpl;
    repeat split; try done; try lia.
Qed.

End PageProperties.

Lemma submit_then_expire_displays_witness :
  run sample_is_email initialView
      [Submit (TrackingForm.mk "ORD789012" "test@example.com"); Expire]
  = mkView (VOrder ORD789012) false [orderFoundToast] [] [].
Proof.
  apply (submit_then_expire_displays sample_is_email "ORD789012" ORD789012
           initialView); reflexivity.
Defined.

(** X5: the page driven through the button does nothing the unrestricted
    page cannot do: every run through the button is a run of the
    unrestricted page on the trace with some submissions (the clicks on the
    disabled button) dropped. *)
Theorem ui_run_is_run (is_email : string → bool) (trace : list action) :
  ∀ st : View, ∃ trace' : list action,
    sublist trace' trace ∧
    ui_run is_email st trace = run is_email st trace'.
Proof.
  induction trace as [|a trace IH]; intros st.
  - exists []. by split.
  - destruct a as [values|].
    + unfold ui_run. simpl. unfold click.
      destruct (submitDisabled st).
      * destruct (IH st) as (trace' & Hsub & Hrun).
        exists trace'. split; [by apply sublist_cons|done].
      * destruct (IH (handleSubmit is_email values st))
          as (trace' & Hsub & Hrun).
        exists (Submit values :: trace'). split; [by apply sublist_skip|done].
    + destruct (IH (step is_email st Expire)) as (trace' & Hsub & Hrun).
      exists (Expire :: trace'). split; [by apply sublist_skip|done].
Qed.

(** ** The result card *)

(** Case analysis of a status against the four literals of the page. *)
Ltac status_cases s Hs :=
  repeat match goal with
  | |- context [String.eqb s ?lit] =>
      let E := fresh "E" in
      destruct (String.eqb_spec s lit) as [E|_];
        [exfalso; apply Hs; rewrite E; apply list_elem_of_In; simpl; tauto|]
  end.

(** X6: for the status at position [i] of the lifecycle the first [i+1]
    check marks under the progress bar are green and the others grey, the
    bar stands at [25 * (i+1)], and the badge shows the caption written
    above its check mark, with a non-empty message in the status panel. *)
Theorem known_status_card (i : nat) (s : string) :
  lifecycle !! i = Some s →
  checkMarks s = (replicate (S i) true ++ replicate (3 - i) false)%list ∧
  getProgressPercentage s = (25 * (Z.of_nat i + 1))%Z ∧
  progressLabels !! i = Some (statusLabel s) ∧
  statusMessage s ≠ "".
Proof.
  unfold lifecycle.
  do 4 (destruct i as [|i]; [intros [= <-]; by repeat split|]).
  discriminate.
Qed.

Lemma known_status_card_witness :
  checkMarks "in-transit" = [true; true; true; false] ∧
  progressLabels !! 2%nat = Some (statusLabel "in-transit").
Proof.
  destruct (known_status_card 2 "in-transit" eq_refl) as (Hm & _ & Hl & _).
  split; [exact Hm | exact Hl].
Defined.

(** X7: a record whose status is none of the four lifecycle statuses is
    still displayed, as an empty card: a yellow badge without text, the bar
    at 0 with all four check marks grey, the package icon without a
    message, no location block and no "Delivered on" line. *)
Theorem unknown_status_card (r : Order) :
  status r ∉ lifecycle →
  badgeClass (status r) = "bg-yellow-100 text-yellow-800" ∧
  statusLabel (status r) = "" ∧
  progressValue r = 0%Z ∧
  checkMarks (status r) = [false; false; false; false] ∧
  statusIcon (status r) = Package ∧
  statusMessage (status r) = "" ∧
  locationBlock r = None ∧
  deliveredOn r = Hidden.
Proof.
  intros Hs.
  unfold badgeClass, statusLabel, progressValue, checkMarks, statusIcon,
    statusMessage, locationBlock, deliveredOn.
  rewrite (getProgressPercentage_other _ Hs).
  status_cases (status r) Hs. by repeat split.
Qed.

Lemma unknown_status_card_witness :
  statusLabel "cancelled" = "" ∧
  checkMarks "cancelled" = [false; false; false; false].
Proof.
  assert (H : "cancelled" ∉ lifecycle).
  { intros Hin%list_elem_of_In. simpl in Hin.
    repeat destruct Hin as [Hin|Hin]; try discriminate Hin. done. }
  destruct (unknown_status_card
              (mkOrder "cancelled" "" "" "" [] (mkLocation 0 0 "") "" []) H)
    as (_ & Hl & _ & Hm & _).
  split; [exact Hl | exact Hm].
Defined.

(** ** The tracking history list *)

(** X8: for every history, the list shows one row per entry, in order,
    with the entry's label, timestamp and location; the orange marker is on
    the first row and on no other, and every row but the last has a
    connector below it. *)
Theorem renderHistory_rows (history : list Event.t) :
  List.length (renderHistory history) = List.length history ∧
  ∀ (i : nat) (row : HistoryRow),
    renderHistory history !! i = Some row →
    ∃ event : Event.t,
      history !! i = Some event ∧
      rowLabel row = statusLabel (Event.status event) ∧
      rowTimestamp row = Event.timestamp event ∧
      rowLocation row = Event.location event ∧
      (markerClass row = "bg-catering-orange" ↔ i = 0%nat) ∧
      (connector row = false ↔ S i = List.length history).
Proof.
  unfold renderHistory. split; [apply length_imap|].
  intros i row. rewrite list_lookup_imap.
  destruct (history !! i) as [event|] eqn:E; [|discriminate].
  intros [= <-]. exists event. simpl. repeat split; try done.
  - destruct i; [done|discriminate].
  - intros ->. done.
  - intros H%negb_false_iff%Z.eqb_eq. lia.
  - intros H. apply negb_false_iff, Z.eqb_eq. lia.
Qed.

Lemma renderHistory_rows_witness :
  ∃ event : Event.t,
    trackingHistory ORD123456 !! 2%nat = Some event ∧
    rowLabel (mkHistoryRow "bg-gray-300" false "In Transit"
                "2023-11-15T13:00:00" "En Route to Destination")
    = statusLabel (Event.status event).
Proof.
  destruct (proj2 (renderHistory_rows (trackingHistory ORD123456)) 2%nat
              (mkHistoryRow "bg-gray-300" false "In Transit"
                 "2023-11-15T13:00:00" "En Route to Destination") eq_refl)
    as (event & He & Hl & _).
  exists event. split; [exact He | exact Hl].
Defined.

Lemma checkMarks_lifecycle (i : nat) (s : string) :
  lifecycle !! i = Some s →
  checkMarks s = (replicate (S i) true ++ replicate (3 - i) false)%list.
Proof.
  unfold lifecycle.
  do 4 (destruct i as [|i]; [intros [= <-]; reflexivity|]).
  discriminate.
Qed.

Lemma renderHistory_labels (history : list Event.t) :
  map rowLabel (renderHistory history)
  = map statusLabel (map Event.status history).
Proof.
  unfold renderHistory. apply list_eq. intros i.
  rewrite !list_lookup_fmap, list_lookup_imap.
  by destruct (history !! i).
Qed.

(** X9: for any record whose history advances linearly from the first
    status and ends at the record's current status, the card is
    consistent: the labels of the history rows are the captions above the
    progress bar, from the left, one per row, and the number of green check
    marks is the number of rows. *)
Theorem linear_history_card (r : Order) :
  linear_from 0 (history_statuses r) →
  Event.status <$> last (trackingHistory r) = Some (status r) →
  let n := List.length (trackingHistory r) in
  map rowLabel (renderHistory (trackingHistory r)) = take n progressLabels ∧
  checkMarks (status r) = (replicate n true ++ replicate (4 - n) false)%list ∧
  progressValue r = (25 * Z.of_nat n)%Z.
Proof.
  intros Hlin Hlast n.
  pose proof (linear_from_take _ 0 Hlin) as Htake.
  unfold history_statuses in Htake. rewrite length_map in Htake.
  change (drop 0 lifecycle) with lifecycle in Htake. fold n in Htake.
  split.
  - rewrite renderHistory_labels, Htake.
    change (map statusLabel (take n lifecycle))
      with (statusLabel <$> take n lifecycle).
    rewrite fmap_take. reflexivity.
  - rewrite last_lookup in Hlast. fold n in Hlast.
    assert (Hs : lifecycle !! pred n = Some (status r)).
    { rewrite <- list_lookup_fmap in Hlast.
      change (Event.status <$> trackingHistory r)
        with (map Event.status (trackingHistory r)) in Hlast.
      rewrite Htake in Hlast.
      apply lookup_take_Some in Hlast. tauto. }
    assert (Hn : (1 ≤ n)%nat).
    { destruct (trackingHistory r) eqn:E; [discriminate Hlast|].
      subst n. simpl. lia. }
    pose proof (lookup_lt_Some _ _ _ Hs) as Hlt. simpl in Hlt.
    replace n with (S (pred n)) at 1 2 by lia.
    replace (4 - n)%nat with (3 - pred n)%nat by lia.
    split; [by apply checkMarks_lifecycle|].
    unfold progressValue. rewrite (lifecycle_progress _ _ Hs). lia.
Qed.

Lemma linear_history_card_witness :
  map rowLabel (renderHistory (trackingHistory ORD123456))
  = ["Order Placed"; "Preparing"; "In Transit"] ∧
  checkMarks (status ORD123456) = [true; true; true; false].
Proof.
  assert (Hlin : linear_from 0 (history_statuses ORD123456))
    by (vm_compute; tauto).
  destruct (linear_history_card ORD123456 Hlin eq_refl) as (Hl & Hm & _).
  split; [exact Hl | exact Hm].
Defined.

(** X10: the card's title does not show the id that was looked up: for
    every record of the table it reads ["ORD123456"], the records having no
    [orderId] property, so it agrees with the record's key only for that
    one key, and the table has a record it mislabels. *)
Theorem cardTitle_is_fixed :
  (∀ (id : string) (o : Order),
     mockOrderStatuses !! id = Some o →
     cardTitle o = "ORD123456" ∧ (cardTitle o = id ↔ id = "ORD123456")) ∧
  (∀ (values : TrackingForm.values) (st : View) (o : Order),
     trackingResult (lookup_callback values st) = VOrder o →
     (cardTitle o = TrackingForm.orderId values ↔
      TrackingForm.orderId values = "ORD123456")) ∧
  (∃ (id : string) (o : Order),
     mockOrderStatuses !! id = Some o ∧ cardTitle o ≠ id).
Proof.
  assert (Ht : ∀ o, cardTitle o = "ORD123456") by reflexivity.
  split; [|split].
  - intros id o H. rewrite Ht. by repeat split.
  - intros values st o _. rewrite Ht. by split.
  - exists "ORD789012", ORD789012. split; [reflexivity|discriminate].
Qed.

(** ** The "Delivered on" line *)

Lemma find_first {A : Type} (f : A → bool) (l : list A) (x : A) :
  List.find f l = Some x →
  ∃ pre post, l = (pre ++ x :: post)%list ∧ f x = true ∧
              Forall (fun y => f y = false) pre.
Proof.
  induction l as [|y l IH]; simpl; [discriminate|].
  destruct (f y) eqn:E.
  - intros [= <-]. exists [], l. by repeat split.
  - intros (pre & post & -> & Hx & Hpre)%IH.
    exists (y :: pre), post. repeat split; try done. by constructor.
Qed.

(** X11: for an arbitrary record, the "Delivered on" line fails with a
    [TypeError] exactly when the status is ["delivered"] and no history
    entry has that status; it is absent exactly when the status is not
    ["delivered"]; and when shown it reads the timestamp of the first
    history entry with status ["delivered"]. *)
Theorem deliveredOn_cases (r : Order) :
  (deliveredOn r = TypeError ↔
     status r = "delivered" ∧
     ∀ h, h ∈ trackingHistory r → Event.status h ≠ "delivered") ∧
  (deliveredOn r = Hidden ↔ status r ≠ "delivered") ∧
  (∀ t, deliveredOn r = Shown t →
     status r = "delivered" ∧
     ∃ pre h post,
       trackingHistory r = (pre ++ h :: post)%list ∧
       Event.status h = "delivered" ∧
       Event.timestamp h = t ∧
       Forall (fun h' => Event.status h' ≠ "delivered") pre).
Proof.
  unfold deliveredOn, find_delivered.
  destruct (String.eqb_spec (status r) "delivered") as [Hs|Hs].
  - destruct (List.find _ (trackingHistory r)) as [h|] eqn:E.
    + split; [|split].
      * split; [discriminate|]. intros [_ Hno].
        apply List.find_some in E as [Hin Hh%String.eqb_eq].
        apply list_elem_of_In in Hin. by destruct (Hno h Hin).
      * split; [discriminate|done].
      * intros t [= <-]. split; [done|].
        apply find_first in E as (pre & post & -> & Hh%String.eqb_eq & Hpre).
        exists pre, h, post. repeat split; try done.
        eapply Forall_impl; [exact Hpre|]. simpl.
        intros h' Hh'%String.eqb_neq. done.
    + split; [|split].
      * split; [|done]. intros _. split; [done|].
        intros h Hin%list_elem_of_In.
        by apply (List.find_none _ _ E), String.eqb_neq in Hin.
      * split; [discriminate|done].
      * discriminate.
  - split; [|split].
    + split; [discriminate|]. intros [? _]. done.
    + done.
    + discriminate.
Qed.

(** X12: a record whose last history entry carries the record's current
    status never makes the "Delivered on" line fail. *)
Theorem last_entry_invariant_prevents_TypeError (r : Order) :
  Event.status <$> last (trackingHistory r) = Some (status r) →
  deliveredOn r ≠ TypeError.
Proof.
  intros Hlast. unfold deliveredOn, find_delivered.
  destruct (String.eqb_spec (status r) "delivered") as [Hs|Hs]; [|discriminate].
  destruct (List.find _ (trackingHistory r)) as [h|] eqn:E; [discriminate|].
  exfalso.
  destruct (last (trackingHistory r)) as [h|] eqn:El; [|discriminate].
  injection Hlast as Hh.
  apply last_Some_elem_of, list_elem_of_In in El.
  apply (List.find_none _ _ E), String.eqb_neq in El. congruence.
Qed.

Lemma last_entry_invariant_prevents_TypeError_witness :
  deliveredOn ORD789012 = Shown "2023-11-14T12:40:00" ∧
  deliveredOn ORD789012 ≠ TypeError.
Proof.
  split; [reflexivity|].
  apply (last_entry_invariant_prevents_TypeError ORD789012). reflexivity.
Defined.

(** ** The mobile navigation menu *)

Lemma append_cons (c : ascii) (s t : string) :
  String c s ++ t = String c (s ++ t).
Proof. reflexivity. Qed.


Lemma prefix_append (needle hay : string) :
  String.prefix needle hay = true ↔ ∃ post, hay = needle ++ post.
Proof.
  revert hay. induction needle as [|c needle IH]; intros hay; simpl.
  - destruct hay; simpl; (split; [intros _; eexists; reflexivity|done]).
  - destruct hay as [|d hay]; simpl; [split; [done|intros [post [=]]]|].
    destruct (Ascii.ascii_dec c d) as [->|Hne].
    + rewrite IH. split; intros [post Hp]; exists post;
        rewrite append_cons in *; congruence.
    + split; [done|]. intros [post Hp]. rewrite append_cons in Hp. congruence.
Qed.

Lemma includes_occurs (needle hay : string) :
  MobileNavbar.includes needle hay = true ↔
  ∃ pre post, hay = pre ++ needle ++ post.
Proof.
  induction hay as [|c hay IH]; cbn [MobileNavbar.includes].
  - rewrite orb_false_r, prefix_append. split.
    + intros [post Hp]. by exists "", post.
    + intros (pre & post & Hp). destruct pre as [|d pre]; [by exists post|].
      rewrite append_cons in Hp. discriminate.
  - rewrite orb_true_iff, prefix_append, IH. split.
    + intros [[post Hp] | (pre & post & Hp)].
      * by exists "", post.
      * exists (String c pre), post. by rewrite append_cons, Hp.
    + intros (pre & post & Hp). destruct pre as [|d pre].
      * left. by exists post.
      * right. rewrite append_cons in Hp. injection Hp as -> Hp. eauto.
Qed.

(** X13: a link is drawn as active exactly on the pathnames its rule
    describes: on the one pathname of an [===] rule, on every pathname
    that contains the fragment of an [includes] rule at any position, and
    never for the link without a rule.  So "Vendors" is active on
    ["/vendors"], on every ["/vendors/<id>"], and also wherever else
    ["/vendors"] occurs, as on ["/admin/vendors"]. *)
Theorem isActive_spec (l : MobileNavbar.NavLink) (pathname : string) :
  MobileNavbar.isActive l pathname = true ↔
  match MobileNavbar.active l with
  | MobileNavbar.Equals p => pathname = p
  | MobileNavbar.Includes p => ∃ pre post, pathname = pre ++ p ++ post
  | MobileNavbar.Never => False
  end.
Proof.
  unfold MobileNavbar.isActive. destruct (MobileNavbar.active l) as [p|p|].
  - apply String.eqb_eq.
  - apply includes_occurs.
  - split; [discriminate|done].
Qed.

Lemma vendors_active_on (pre post : string) :
  MobileNavbar.isActive
    (MobileNavbar.mkLink "/vendors" "Vendors" (MobileNavbar.Includes "/vendors")
       MobileNavbar.Everyone)
    (pre ++ "/vendors" ++ post) = true.
Proof. apply includes_occurs. eauto. Qed.



(** X15: the menu and the routes of [App] agree on who may see what: every
    link of the menu except "Sign In" leads to a route [App] declares, a
    link shown only to signed-in visitors leads to a route wrapped in
    [ProtectedRoute], and a link shown to everyone leads to a route that is
    not; ["/sign-in"] is not among the declared paths. *)
Theorem menu_agrees_with_routes (l : MobileNavbar.NavLink) :
  l ∈ MobileNavbar.links →
  match App.declared (MobileNavbar.to l) with
  | Some r =>
      (MobileNavbar.shownTo l = MobileNavbar.SignedIn ↔
       App.protected r = true) ∧
      (MobileNavbar.shownTo l = MobileNavbar.Everyone ↔
       App.protected r = false) ∧
      App.path r ≠ "*"
  | None =>
      MobileNavbar.to l = "/sign-in" ∧
      MobileNavbar.shownTo l = MobileNavbar.SignedOut
  end.
Proof.
  intros Hl. unfold MobileNavbar.links in Hl.
  repeat (apply elem_of_cons in Hl as [->|Hl]; [by vm_compute|]).
  by apply elem_of_nil in Hl.
Qed.

Lemma menu_agrees_with_routes_witness :
  match App.declared "/profile" with
  | Some r =>
      (MobileNavbar.SignedIn = MobileNavbar.SignedIn ↔
       App.protected r = true) ∧
      (MobileNavbar.SignedIn = MobileNavbar.Everyone ↔
       App.protected r = false) ∧
      App.path r ≠ "*"
  | None => "/profile" = "/sign-in" ∧
            MobileNavbar.SignedIn = MobileNavbar.SignedOut
  end.
Proof.
  apply (menu_agrees_with_routes
           (MobileNavbar.mkLink "/profile" "Profile"
              (MobileNavbar.Equals "/profile") MobileNavbar.SignedIn)).
  unfold MobileNavbar.links. do 3 apply list_elem_of_further.
  apply list_elem_of_here.
Defined.

(** ** Times of the tracking histories *)

(** X16: in every record of the table the history is in strictly
    increasing order of time, its first entry is stamped with the order's
    date, and every entry lies before the estimated delivery. *)
Theorem history_is_chronological (id : string) (o : Order) :
  mockOrderStatuses !! id = Some o →
  StronglySorted earlier (history_timestamps o) ∧
  head (history_timestamps o) = Some (orderDate o) ∧
  Forall (fun t => earlier t (estimatedDelivery o)) (history_timestamps o).
Proof.
  intros H. each_order H; (split; [|split]);
    repeat first [reflexivity | constructor].
Qed.

Lemma history_is_chronological_witness :
  head (history_timestamps ORD123456) = Some "2023-11-15T10:30:00".
Proof.
  apply (proj1 (proj2 (history_is_chronological "ORD123456" ORD123456
                         eq_refl))).
Defined.
